(** * node-axios-metric: request, response and error metrics of an axios client

    A shallow embedding of [src/index.ts] and the verification of its
    correlation and timing rules.

    - JavaScript numbers are binary64 floats: [number] is Rocq's primitive
      [float], and [-] on timestamps is the IEEE subtraction.
    - The classes of the source are records, one module per class, with the
      constructor as a function of the module.
    - The objects axios builds (a response, its config) have the shape axios
      declares. What this package attaches to a config, the [metadata] with its
      [metric] and [request] entries, may be [undefined] or [null] at every
      level, whatever the declaration says; a failure reaching the error
      handler is any value, recognised by the [isAxiosError] flag it carries.
    - A property read on [undefined] or [null] raises a [TypeError]; code that
      can raise returns a [completion].
    - The interceptors run in a state monad over a [World]: the readings of
      [performance.now()] and the log of what the instrumentation did. *)

From Stdlib Require Import ZArith Lia Floats List.
From stdpp Require Import base option gmap strings.
Import ListNotations.

Local Open Scope string_scope.
Local Open Scope list_scope.
Set Warnings "-register-all".

(** ** Values *)

(** A JavaScript [number]. *)
Abbreviation number := float.

(** Payloads typed [any] in the source: request and response bodies, header
    values, the entries of an index signature. The code never looks inside. *)
Inductive any : Type :=
| JUndefined
| JNull
| JBool (b : bool)
| JNumber (n : number)
| JString (s : string)
| JArray (items : list any)
| JObject (fields : list (string * any)).

(** The values that are not objects. *)
Inductive primitive : Type :=
| PUndefined
| PNull
| PBool (b : bool)
| PNumber (n : number)
| PString (s : string).

(** What a property declared as an object of shape [A] holds at run time: an
    object of that shape, [undefined] or [null]. *)
Inductive nullable (A : Type) : Type :=
| Undefined
| Null
| Present (a : A).
Arguments Undefined {A}.
Arguments Null {A}.
Arguments Present {A} a.

(** Header objects ([RawAxiosRequestHeaders], [RawAxiosResponseHeaders],
    [Record<string, any>]): a map from header name to value. *)
Abbreviation Headers := (gmap string any).

(** The [RequestMetric] interface of the http-metric package, with the fields
    the source reads and writes: the object literal
    [{ headers, start_time, data }]. *)
Module RequestMetric.
Record t : Type := mk {
  headers : Headers;
  start_time : number;
  data : any
}.
End RequestMetric.

(** The [metric] entry of a metadata, [{ request: RequestMetric }]. *)
Module MetadataMetric.
Record t : Type := mk {
  request : nullable RequestMetric.t
}.
End MetadataMetric.

(** [interface Metadata { [x: string]: any; metric: { request: RequestMetric } }]:
    the [metric] entry and the keys of the index signature. *)
Module Metadata.
Record t : Type := mk {
  metric : nullable MetadataMetric.t;
  index : gmap string any
}.

(** The object [{ metric: { request: r } }], with the further keys [index]. *)
Definition with_request (r : RequestMetric.t) (index : gmap string any) : t :=
  {| metric := Present {| MetadataMetric.request := Present r |};
     index := index |}.
End Metadata.

(** axios's [InternalAxiosRequestConfig]. The module augmentation of the source
    declares [metadata] on every config, but a config has none until the
    request interceptor assigns it, and nothing keeps other code from setting
    it to an object without [metric] or to [null]. [others] holds the
    remaining axios options (baseURL, timeout, params, ...). *)
Module Config.
Record t : Type := mk {
  method : option string;
  url : option string;
  headers : Headers;
  data : any;
  metadata : nullable Metadata.t;
  others : gmap string any
}.

(** [config.metadata = md] *)
Definition set_metadata (config : t) (md : Metadata.t) : t :=
  {| method := method config;
     url := url config;
     headers := headers config;
     data := data config;
     metadata := Present md;
     others := others config |}.
End Config.

(** axios's [AxiosResponse]. *)
Module AxiosResponse.
Record t : Type := mk {
  data : any;
  status : number;
  statusText : string;
  headers : Headers;
  config : Config.t
}.
End AxiosResponse.

(** The properties of a failure object that axios's [AxiosError] declares.
    [config] and [response] are optional; [config] is [None] when the property
    is [undefined] or [null], which the code does not tell apart. *)
Module AxiosError.
Record t : Type := mk {
  message : string;
  code : option string;
  config : option Config.t;
  response : option AxiosResponse.t
}.
End AxiosError.

(** A value of type [unknown] reaching an error handler: an object, with the
    value of its [isAxiosError] property and its other properties as
    [AxiosError] declares them, or a value that is not an object. *)
Inductive unknown : Type :=
| UObject (isAxiosError : any) (e : AxiosError.t)
| UValue (p : primitive).

(** A failure object that carries [isAxiosError: true], as the errors of axios
    do and as any other object may. *)
Definition UAxiosError (e : AxiosError.t) : unknown := UObject (JBool true) e.

(** A [TypeError]: an object with a message and no [isAxiosError]. *)
Definition UTypeError (message : string) : unknown :=
  UObject JUndefined
    {| AxiosError.message := message;
       AxiosError.code := None;
       AxiosError.config := None;
       AxiosError.response := None |}.

(** [axios.isAxiosError(payload)]:
    [isObject(payload) && payload.isAxiosError === true]. The test looks at
    the flag alone, whatever made the object. *)
Definition isAxiosError (payload : unknown) : bool :=
  match payload with
  | UObject (JBool true) _ => true
  | _ => false
  end.

(** A binary64 value that is not below zero: a zero of either sign, a positive
    number, [+infinity] or a NaN. *)
Definition SFnonneg (x : spec_float) : bool :=
  match x with
  | S754_infinity true | S754_finite true _ _ => false
  | _ => true
  end.

(** ** Completions *)

(** How an evaluation ends: with a value, or with a thrown one. *)
Inductive completion (A : Type) : Type :=
| Returned (a : A)
| Thrown (e : unknown).
Arguments Returned {A} a.
Arguments Thrown {A} e.

Definition completion_bind {A B : Type} (c : completion A) (k : A -> completion B) : completion B :=
  match c with
  | Returned a => k a
  | Thrown e => Thrown e
  end.

Definition completion_map {A B : Type} (f : A -> B) (c : completion A) : completion B :=
  completion_bind c (fun a => Returned (f a)).

(** [o.key]: the read of a property on [undefined] or [null] throws. *)
Definition read {A B : Type} (o : nullable A) (key : string) (field : A -> B)
    : completion B :=
  match o with
  | Present a => Returned (field a)
  | Undefined =>
      Thrown (UTypeError
        (String.append "Cannot read properties of undefined (reading '"
           (String.append key "')")))
  | Null =>
      Thrown (UTypeError
        (String.append "Cannot read properties of null (reading '"
           (String.append key "')")))
  end.

(** [config.metadata.metric.request]: the read of [.metric] on [metadata],
    then of [.request] on what it gave. *)
Definition metadata_metric_request (config : Config.t)
    : completion (nullable RequestMetric.t) :=
  completion_bind (read (Config.metadata config) "metric" Metadata.metric) (fun metric =>
  read metric "request" MetadataMetric.request).

(** [config.metadata.metric.request.key], for [key] one of [headers],
    [start_time] and [data]. *)
Definition metadata_metric_request_property {B : Type}
    (config : Config.t) (key : string) (field : RequestMetric.t -> B) : completion B :=
  completion_bind (metadata_metric_request config) (fun request =>
  read request key field).

(** ** The metric classes *)

Module AxiosRequestMetric.
Record t : Type := mk {
  method : option string;
  url : option string;
  headers : Headers;
  data : any;
  start_time : number
}.

(** [constructor(config, start_time)] *)
Definition new (config : Config.t) (start_time : number) : t :=
  {| method := Config.method config;
     url := Config.url config;
     headers := Config.headers config;
     data := Config.data config;
     start_time := start_time |}.

(** The instance seen through the [RequestMetric] interface it implements. *)
Definition as_RequestMetric (m : t) : RequestMetric.t :=
  {| RequestMetric.headers := headers m;
     RequestMetric.start_time := start_time m;
     RequestMetric.data := data m |}.
End AxiosRequestMetric.

(** The [response] entry of a response metric. *)
Module ResponseInfo.
Record t : Type := mk {
  status_code : number;
  status_message : string;
  data : any
}.
End ResponseInfo.

(** [HttpMetric & ResponseMetric]: the argument of the private constructor of
    [AxiosResponseMetric]. *)
Module HttpResponseMetric.
Record t : Type := mk {
  method : option string;
  url : option string;
  headers : option Headers;
  request : RequestMetric.t;
  response : ResponseInfo.t;
  end_time : number;
  response_time : number
}.
End HttpResponseMetric.

Module AxiosResponseMetric.
Record t : Type := mk {
  method : option string;
  url : option string;
  request : option RequestMetric.t;
  headers : option Headers;
  response : ResponseInfo.t;
  end_time : number;
  response_time : number
}.

(** [private constructor(metric)]: six assignments, none to [this.request]. *)
Definition new (metric : HttpResponseMetric.t) : t :=
  {| method := HttpResponseMetric.method metric;
     url := HttpResponseMetric.url metric;
     request := None;
     headers := HttpResponseMetric.headers metric;
     response := HttpResponseMetric.response metric;
     end_time := HttpResponseMetric.end_time metric;
     response_time := HttpResponseMetric.response_time metric |}.

(** [static fromAxiosResponse(response, end_time)] *)
Definition fromAxiosResponse (response : AxiosResponse.t) (end_time : number) : completion t :=
  let config := AxiosResponse.config response in
  completion_bind
    (metadata_metric_request_property config "headers" RequestMetric.headers)
    (fun request_headers =>
  completion_bind
    (metadata_metric_request_property config "start_time" RequestMetric.start_time)
    (fun request_start_time =>
  completion_bind
    (metadata_metric_request_property config "data" RequestMetric.data)
    (fun request_data =>
  completion_bind
    (metadata_metric_request_property config "start_time" RequestMetric.start_time)
    (fun start_time =>
  Returned (new
    {| HttpResponseMetric.method := Config.method config;
       HttpResponseMetric.url := Config.url config;
       HttpResponseMetric.headers := Some (AxiosResponse.headers response);
       HttpResponseMetric.request :=
         {| RequestMetric.headers := request_headers;
            RequestMetric.start_time := request_start_time;
            RequestMetric.data := request_data |};
       HttpResponseMetric.response :=
         {| ResponseInfo.status_code := AxiosResponse.status response;
            ResponseInfo.status_message := AxiosResponse.statusText response;
            ResponseInfo.data := AxiosResponse.data response |};
       HttpResponseMetric.end_time := end_time;
       HttpResponseMetric.response_time := (end_time - start_time)%float |}))))).
End AxiosResponseMetric.

Module AxiosErrorMetric.
Record t : Type := mk {
  method : option string;
  url : option string;
  request : option RequestMetric.t;
  headers : option Headers;
  end_time : number;
  response_time : number;
  error : unknown
}.

(** The value of [axios_static.isAxiosError(error) && error.config] when it
    is truthy: the config of a failure that passes the test. *)
Definition recognised_config (error : unknown) : option Config.t :=
  if isAxiosError error then
    match error with
    | UObject _ e => AxiosError.config e
    | UValue _ => None
    end
  else None.

(** [constructor(error, end_time)] *)
Definition new (error : unknown) (end_time : number) : completion t :=
  match recognised_config error with
  | Some config =>
      completion_bind
        (metadata_metric_request_property config "headers" RequestMetric.headers)
        (fun request_headers =>
      completion_bind
        (metadata_metric_request_property config "start_time" RequestMetric.start_time)
        (fun request_start_time =>
      completion_bind
        (metadata_metric_request_property config "data" RequestMetric.data)
        (fun request_data =>
      completion_bind
        (metadata_metric_request_property config "start_time" RequestMetric.start_time)
        (fun start_time =>
      Returned
        {| end_time := end_time;
           error := error;
           method := Config.method config;
           url := Config.url config;
           headers := Some (Config.headers config);
           request := Some
             {| RequestMetric.headers := request_headers;
                RequestMetric.start_time := request_start_time;
                RequestMetric.data := request_data |};
           response_time := (end_time - start_time)%float |}))))
  | None =>
      Returned
        {| end_time := end_time;
           error := error;
           method := None;
           url := None;
           headers := None;
           request := None;
           response_time := (-1)%float |}
  end.
End AxiosErrorMetric.

(** ** The world of the interceptors *)

(** The callbacks a caller registers. A callback is opaque to the
    instrumentation: it is given the metric and the original value, and it
    returns or throws. *)
Definition RequestMetricCallback : Type :=
  AxiosRequestMetric.t -> Config.t -> completion unit.
Definition ResponseMetricCallback : Type :=
  AxiosResponseMetric.t -> AxiosResponse.t -> completion unit.
Definition ErrorMetricCallback : Type :=
  AxiosErrorMetric.t -> unknown -> completion unit.

(** What the instrumentation does besides computing: it evaluates a [new]
    expression or a call of the static factory, and it invokes a callback. *)
Inductive event : Type :=
| NewRequestMetric (config : Config.t)
| FromAxiosResponse (response : AxiosResponse.t)
| NewErrorMetric (error : unknown)
| CallRequestCb (metric : AxiosRequestMetric.t) (config : Config.t)
| CallResponseCb (metric : AxiosResponseMetric.t) (response : AxiosResponse.t)
| CallErrorCb (metric : AxiosErrorMetric.t) (error : unknown).

(** [performance] gives the successive readings of [performance.now()],
    [reads] counts the readings taken so far, [log] records the events. *)
Record World : Type := mkWorld {
  performance : nat -> number;
  reads : nat;
  log : list event
}.

(** A computation that reads and updates the world and may throw. *)
Definition M (A : Type) : Type := World -> completion A * World.

Definition ret {A : Type} (a : A) : M A := fun w => (Returned a, w).

Definition bind {A B : Type} (m : M A) (k : A -> M B) : M B :=
  fun w =>
    match m w with
    | (Returned a, w') => k a w'
    | (Thrown e, w') => (Thrown e, w')
    end.

Notation "x <- m ;; k" := (bind m (fun x => k))
  (at level 100, m at next level, right associativity).
Notation "m ;;; k" := (bind m (fun _ => k))
  (at level 100, right associativity).

(** A pure evaluation inside a computation. *)
Definition lift {A : Type} (c : completion A) : M A := fun w => (c, w).

(** [performance.now()] *)
Definition performance_now : M number :=
  fun w =>
    (Returned (performance w (reads w)),
     {| performance := performance w; reads := S (reads w); log := log w |}).

Definition emit (ev : event) : M unit :=
  fun w =>
    (Returned tt,
     {| performance := performance w; reads := reads w; log := log w ++ [ev] |}).

(** A promise as a handler returns it: [Promise.reject(error)] is
    [Rejected error]. *)
Inductive Promise (A : Type) : Type :=
| Fulfilled (a : A)
| Rejected (reason : unknown).
Arguments Fulfilled {A} a.
Arguments Rejected {A} reason.

(** What the promise chain sees of a rejection handler: the promise it
    returned, or a rejection with what it threw. *)
Definition settle {A : Type} (c : completion (Promise A)) : Promise A :=
  match c with
  | Returned p => p
  | Thrown e => Rejected e
  end.

(** ** The interceptors *)

(** [config.metadata = { metric: { request: metric } }]: a new object with the
    one entry. *)
Definition annotate (config : Config.t) (metric : AxiosRequestMetric.t) : Config.t :=
  Config.set_metadata config
    (Metadata.with_request (AxiosRequestMetric.as_RequestMetric metric) ∅).

(** The request interceptor of [useRequestMetric]:
    [(config) => { const metric = new AxiosRequestMetric(config);
                   config.metadata = { metric: { request: metric } };
                   cb?.(metric, config); return config; }] *)
Definition useRequestMetric_onFulfilled
    (cb : option RequestMetricCallback) (config : Config.t) : M Config.t :=
  emit (NewRequestMetric config) ;;;
  start_time <- performance_now ;;
  let metric := AxiosRequestMetric.new config start_time in
  let config := annotate config metric in
  match cb with
  | Some f => emit (CallRequestCb metric config) ;;; lift (f metric config)
  | None => ret tt
  end ;;;
  ret config.

(** The response interceptor of [useResponseMetric]:
    [(response) => { res?.(AxiosResponseMetric.fromAxiosResponse(response), response);
                     return response; }] *)
Definition useResponseMetric_onFulfilled
    (res : option ResponseMetricCallback) (response : AxiosResponse.t) : M AxiosResponse.t :=
  match res with
  | Some f =>
      emit (FromAxiosResponse response) ;;;
      end_time <- performance_now ;;
      metric <- lift (AxiosResponseMetric.fromAxiosResponse response end_time) ;;
      emit (CallResponseCb metric response) ;;;
      lift (f metric response)
  | None => ret tt
  end ;;;
  ret response.

(** The error interceptor of [useResponseMetric]:
    [(error) => { err?.(new AxiosErrorMetric(error), error);
                  return Promise.reject(error); }] *)
Definition useResponseMetric_onRejected
    (err : option ErrorMetricCallback) (error : unknown) : M (Promise AxiosResponse.t) :=
  match err with
  | Some f =>
      emit (NewErrorMetric error) ;;;
      end_time <- performance_now ;;
      metric <- lift (AxiosErrorMetric.new error end_time) ;;
      emit (CallErrorCb metric error) ;;;
      lift (f metric error)
  | None => ret tt
  end ;;;
  ret (Rejected error).

(** ** The registrar *)

(** An entry of an axios interceptor manager: [use(fulfilled, rejected)]. *)
Record Interceptor (A : Type) : Type := mkInterceptor {
  fulfilled : A -> M A;
  rejected : option (unknown -> M (Promise A))
}.
Arguments mkInterceptor {A} fulfilled rejected.
Arguments fulfilled {A} i.
Arguments rejected {A} i.

(** [axios.interceptors] of an [AxiosStatic] or [AxiosInstance]. *)
Record AxiosInstance : Type := mkAxios {
  interceptors_request : list (Interceptor Config.t);
  interceptors_response : list (Interceptor AxiosResponse.t)
}.

Definition useRequestMetric (axios : AxiosInstance) (cb : option RequestMetricCallback)
    : AxiosInstance :=
  {| interceptors_request :=
       interceptors_request axios
         ++ [mkInterceptor (useRequestMetric_onFulfilled cb) None];
     interceptors_response := interceptors_response axios |}.

Definition useResponseMetric (axios : AxiosInstance)
    (res : option ResponseMetricCallback) (err : option ErrorMetricCallback)
    : AxiosInstance :=
  {| interceptors_request := interceptors_request axios;
     interceptors_response :=
       interceptors_response axios
         ++ [mkInterceptor (useResponseMetric_onFulfilled res)
               (Some (useResponseMetric_onRejected err))] |}.

(** [use(axios, requestMetricCallback, responseMetricCallback)]: the third
    argument of [useResponseMetric] is left out. *)
Definition use (axios : AxiosInstance)
    (requestMetricCallback : option RequestMetricCallback)
    (responseMetricCallback : option ResponseMetricCallback) : AxiosInstance :=
  useResponseMetric (useRequestMetric axios requestMetricCallback)
    responseMetricCallback None.

(** ** Sample values *)

Definition request_headers : Headers := {[ "Accept" := JString "application/json" ]}.
Definition response_headers : Headers := {[ "content-type" := JString "text/plain" ]}.

(** [GET /items] as axios hands it to the request interceptor. *)
Definition get_items : Config.t :=
  {| Config.method := Some "get";
     Config.url := Some "/items";
     Config.headers := request_headers;
     Config.data := JUndefined;
     Config.metadata := Undefined;
     Config.others := {[ "timeout" := JNumber 1000%float ]} |}.

(** A config with no method, no url and no body. *)
Definition bare_config : Config.t :=
  {| Config.method := None;
     Config.url := None;
     Config.headers := ∅;
     Config.data := JUndefined;
     Config.metadata := Undefined;
     Config.others := ∅ |}.

(** The request metric of [get_items] dispatched at t0 = 100. *)
Definition get_items_request : RequestMetric.t :=
  AxiosRequestMetric.as_RequestMetric (AxiosRequestMetric.new get_items 100%float).

(** [get_items] as the request interceptor leaves it. *)
Definition get_items_sent : Config.t :=
  Config.set_metadata get_items (Metadata.with_request get_items_request ∅).

(** [get_items] carrying metadata of another origin, with a key of its own. *)
Definition get_items_tagged : Config.t :=
  Config.set_metadata get_items
    (Metadata.with_request
       {| RequestMetric.headers := ∅;
          RequestMetric.start_time := 7%float;
          RequestMetric.data := JNull |}
       {[ "traceId" := JString "abc" ]}).

Definition ok_response (config : Config.t) : AxiosResponse.t :=
  {| AxiosResponse.data := JString "[]";
     AxiosResponse.status := 200%float;
     AxiosResponse.statusText := "OK";
     AxiosResponse.headers := response_headers;
     AxiosResponse.config := config |}.

Definition axios_error (config : option Config.t) : unknown :=
  UAxiosError
    {| AxiosError.message := "Request failed with status code 500";
       AxiosError.code := Some "ERR_BAD_RESPONSE";
       AxiosError.config := config;
       AxiosError.response :=
         match config with
         | Some c => Some (ok_response c)
         | None => None
         end |}.

(** A clock whose first reading is 100 and whose later readings are 150. *)
Definition world0 : World :=
  {| performance := fun n => match n with O => 100%float | S _ => 150%float end;
     reads := 0;
     log := [] |}.

(** The same clock after its first reading. *)
Definition world1 : World :=
  {| performance := performance world0; reads := 1; log := [] |}.

Definition quiet_request_cb : RequestMetricCallback := fun _ _ => Returned tt.
Definition quiet_response_cb : ResponseMetricCallback := fun _ _ => Returned tt.
Definition quiet_error_cb : ErrorMetricCallback := fun _ _ => Returned tt.

(** A response callback that throws. *)
Definition failing_response_cb : ResponseMetricCallback :=
  fun _ _ => Thrown (UValue (PString "callback failed")).

Definition empty_axios : AxiosInstance :=
  {| interceptors_request := []; interceptors_response := [] |}.

(** ** Observations on the log *)

(** What a run added to the log of the world it started from. *)
Definition added (w w' : World) : list event := drop (length (log w)) (log w').

(** ** More sample values *)

(** [POST /orders] with a body. *)
Definition post_orders : Config.t :=
  {| Config.method := Some "post";
     Config.url := Some "/orders";
     Config.headers := {[ "content-type" := JString "application/json" ]};
     Config.data := JObject [("sku", JString "A-1"); ("qty", JNumber 2%float)];
     Config.metadata := Undefined;
     Config.others := ∅ |}.

(** A clock with the readings 100, 110, 150, 175 and then 200. *)
Definition ticking : World :=
  {| performance := fun n =>
       match n with
       | 0 => 100%float
       | 1 => 110%float
       | 2 => 150%float
       | 3 => 175%float
       | _ => 200%float
       end;
     reads := 0;
     log := [] |}.

(** [post_orders] as the request hook leaves it at 110. *)
Definition post_orders_sent : Config.t :=
  annotate post_orders (AxiosRequestMetric.new post_orders 110%float).

(** The world after [get_items] and [post_orders] passed the request hook. *)
Definition two_in_flight : World :=
  {| performance := performance ticking;
     reads := 2;
     log := [NewRequestMetric get_items; NewRequestMetric post_orders] |}.

(** [get_items] with a [metadata] that is [null], that has no [metric], whose
    [metric] is [null], and whose [metric] has no [request]. *)
Definition get_items_null_metadata : Config.t :=
  {| Config.method := Config.method get_items;
     Config.url := Config.url get_items;
     Config.headers := Config.headers get_items;
     Config.data := Config.data get_items;
     Config.metadata := Null;
     Config.others := Config.others get_items |}.

Definition get_items_no_metric : Config.t :=
  Config.set_metadata get_items
    {| Metadata.metric := Undefined;
       Metadata.index := {[ "traceId" := JString "abc" ]} |}.

Definition get_items_null_metric : Config.t :=
  Config.set_metadata get_items
    {| Metadata.metric := Null; Metadata.index := ∅ |}.

Definition get_items_no_request : Config.t :=
  Config.set_metadata get_items
    {| Metadata.metric := Present {| MetadataMetric.request := Undefined |};
       Metadata.index := ∅ |}.

(** An object that is no axios error but carries the flag and a config, and
    the same object with a flag that is truthy without being [true]. *)
Definition flagged_object (flag : any) (config : option Config.t) : unknown :=
  UObject flag
    {| AxiosError.message := "";
       AxiosError.code := None;
       AxiosError.config := config;
       AxiosError.response := None |}.

Definition failing_request_cb : RequestMetricCallback :=
  fun _ _ => Thrown (UValue (PString "request callback failed")).

Definition failing_error_cb : ErrorMetricCallback :=
  fun _ _ => Thrown (UValue (PString "error callback failed")).

(** * Properties *)

(** ** Binary64 subtraction keeps the order

    [t0 <= t1] gives [t1 - t0 >= 0] or a NaN, for every pair of floats: the
    exact difference of two aligned mantissas is not negative, and rounding
    keeps the sign. *)
Section Binary64.
Local Open Scope Z_scope.

Lemma iter_xO_ge (d m : positive) : 2 * Z.pos m <= Z.pos (Pos.iter xO m d).
Proof.
  revert m. induction d as [|d IH] using Pos.peano_ind; intros m.
  - simpl. lia.
  - rewrite Pos.iter_succ. specialize (IH m). lia.
Qed.

Lemma digits2_pos_bounds (m : positive) :
  2 ^ (Z.pos (digits2_pos m) - 1) <= Z.pos m < 2 ^ Z.pos (digits2_pos m).
Proof.
  induction m as [p IH|p IH|]; simpl digits2_pos; [| |simpl; lia].
  all: rewrite Pos2Z.inj_succ.
  all: replace (Z.succ (Z.pos (digits2_pos p)) - 1)
         with (Z.succ (Z.pos (digits2_pos p) - 1)) by lia.
  all: rewrite !Z.pow_succ_r by lia; lia.
Qed.

(** A valid mantissa has at most [prec] digits, exactly [prec] above the
    least exponent. *)
Lemma bounded_digits (m : positive) (e : Z) :
  bounded prec emax m e = true ->
  Z.pos (digits2_pos m) <= prec
  /\ (emin < e -> Z.pos (digits2_pos m) = prec)
  /\ emin <= e.
Proof.
  unfold bounded, canonical_mantissa, fexp, SpecFloat.emin, prec, emax.
  intros H. apply andb_prop in H as [H _]. apply Z.eqb_eq in H. lia.
Qed.

Lemma shl_align_same (m : positive) (e : Z) : fst (shl_align m e e) = m.
Proof. unfold shl_align. now rewrite Z.sub_diag. Qed.

Lemma shl_align_lower (m : positive) (e e' : Z) :
  e' < e -> 2 * Z.pos m <= Z.pos (fst (shl_align m e e')).
Proof.
  intros H. unfold shl_align. destruct (e' - e) as [|d|d] eqn:E; try lia.
  simpl. apply iter_xO_ge.
Qed.

(** Of two valid floats, the one with the larger exponent has the larger
    aligned mantissa. *)
Lemma aligned_lt (mx my : positive) (ex ey : Z) :
  bounded prec emax mx ex = true -> bounded prec emax my ey = true -> ey < ex ->
  Z.pos (fst (shl_align my ey (Z.min ex ey)))
  < Z.pos (fst (shl_align mx ex (Z.min ex ey))).
Proof.
  intros Hx Hy Hlt.
  apply bounded_digits in Hx as (_ & Hx & _), Hy as (Hy & _ & Hemin).
  rewrite Z.min_r by lia. rewrite shl_align_same.
  pose proof (shl_align_lower mx ex ey Hlt) as Hsh.
  pose proof (digits2_pos_bounds mx) as [Hmx _].
  pose proof (digits2_pos_bounds my) as [_ Hmy].
  rewrite Hx in Hmx by lia.
  assert (2 ^ Z.pos (digits2_pos my) <= 2 ^ prec) as Hpow
    by (apply Z.pow_le_mono_r; lia).
  change (2 ^ (prec - 1)) with 4503599627370496 in Hmx.
  change (2 ^ prec) with 9007199254740992 in Hpow.
  lia.
Qed.

Lemma aligned_lt_comm (mx my : positive) (ex ey : Z) :
  bounded prec emax mx ex = true -> bounded prec emax my ey = true -> ey < ex ->
  Z.pos (fst (shl_align my ey (Z.min ey ex)))
  < Z.pos (fst (shl_align mx ex (Z.min ey ex))).
Proof. rewrite (Z.min_comm ey ex). apply aligned_lt. Qed.

Lemma SFltb_zero (x : spec_float) : SFltb x (S754_zero false) = negb (SFnonneg x).
Proof. now destruct x as [[]|[]| |[] ? ?]. Qed.

Lemma binary_round_aux_nonneg (mx ex : Z) (lx : location) :
  SFnonneg (binary_round_aux prec emax false mx ex lx) = true.
Proof.
  unfold binary_round_aux.
  destruct (shr_fexp prec emax mx ex lx) as [mrs' e'].
  destruct (shr_fexp prec emax _ e' loc_Exact) as [mrs'' e''].
  destruct (shr_m mrs''); [reflexivity| |reflexivity].
  now destruct (_ <=? _).
Qed.

Lemma binary_normalize_nonneg (m e : Z) :
  0 <= m -> SFnonneg (binary_normalize prec emax m e false) = true.
Proof.
  intros Hm. destruct m as [|p|p]; [reflexivity| |lia].
  unfold binary_normalize, binary_round.
  destruct (shl_align _ _ _) as [mz ez]. apply binary_round_aux_nonneg.
Qed.

Lemma SFsub_nonneg (x y : spec_float) :
  valid_binary x = true -> valid_binary y = true ->
  SFleb y x = true -> SFnonneg (SF64sub x y) = true.
Proof.
  intros Vx Vy Hle. unfold SFleb in Hle.
  destruct x as [sx|sx| |sx mx ex], y as [sy|sy| |sy my ey];
    try destruct sx; try destruct sy; simpl in Hle;
    try discriminate; try reflexivity.
  all: unfold SF64sub, SFsub; apply binary_normalize_nonneg.
  all: simpl in Vx, Vy; unfold cond_Zopp.
  - (* both negative *)
    destruct (Z.compare_spec ey ex) as [->|Hlt|Hgt]; try discriminate.
    + rewrite Z.min_id, !shl_align_same.
      change (PosDef.Pos.compare_cont Eq my mx) with (my ?= mx)%positive in Hle.
      destruct (Pos.compare_spec my mx); simpl in Hle; try discriminate; lia.
    + pose proof (aligned_lt_comm my mx ey ex Vy Vx Hgt). lia.
  - (* x positive, y negative *)
    lia.
  - (* both positive *)
    destruct (Z.compare_spec ey ex) as [->|Hlt|Hgt]; try discriminate.
    + rewrite Z.min_id, !shl_align_same.
      change (PosDef.Pos.compare_cont Eq my mx) with (my ?= mx)%positive in Hle.
      destruct (Pos.compare_spec my mx); simpl in Hle; try discriminate; lia.
    + pose proof (aligned_lt mx my ex ey Vx Vy Hlt). lia.
Qed.

Lemma float_sub_nonneg (t0 t1 : number) :
  (t0 <=? t1)%float = true -> (t1 - t0 <? 0)%float = false.
Proof.
  intros H. rewrite leb_spec in H. rewrite ltb_spec, sub_spec.
  change (Prim2SF 0) with (S754_zero false).
  rewrite SFltb_zero, SFsub_nonneg; auto using Prim2SF_valid.
Qed.
End Binary64.

(** ** Correlation reads *)

(** The cases of [config.metadata]: each of the three levels is [undefined],
    [null] or present. *)
Ltac chain_cases config :=
  let H := fresh "Hmetadata" in
  destruct (Config.metadata config) as [| |[[| |[[| |?r]]] ?index]] eqn:H.

Lemma metadata_metric_request_property_present {B : Type}
    (config : Config.t) (r : RequestMetric.t) (index : gmap string any)
    (key : string) (field : RequestMetric.t -> B) :
  Config.metadata config = Present (Metadata.with_request r index) ->
  metadata_metric_request_property config key field = Returned (field r).
Proof.
  intros H. unfold metadata_metric_request_property, metadata_metric_request.
  now rewrite H.
Qed.

Lemma metadata_metric_request_property_returned {B : Type}
    (config : Config.t) (key : string) (field : RequestMetric.t -> B) (b : B) :
  metadata_metric_request_property config key field = Returned b ->
  exists r index,
    Config.metadata config = Present (Metadata.with_request r index) /\ b = field r.
Proof.
  unfold metadata_metric_request_property, metadata_metric_request.
  chain_cases config; simpl; try discriminate.
  intros [= <-]. now eexists _, _.
Qed.

Lemma recognised_config_axios (e : AxiosError.t) :
  AxiosErrorMetric.recognised_config (UAxiosError e) = AxiosError.config e.
Proof. reflexivity. Qed.

Lemma recognised_config_none (error : unknown) :
  isAxiosError error = false
  \/ (forall flag e, error = UObject flag e -> AxiosError.config e = None) ->
  AxiosErrorMetric.recognised_config error = None.
Proof.
  unfold AxiosErrorMetric.recognised_config.
  intros [->|H]; [reflexivity|].
  destruct error as [flag e|p]; [|now destruct (isAxiosError _)].
  rewrite (H flag e eq_refl). now destruct (isAxiosError _).
Qed.

Lemma recognised_config_some (error : unknown) (config : Config.t) :
  AxiosErrorMetric.recognised_config error = Some config ->
  exists e, error = UAxiosError e /\ AxiosError.config e = Some config.
Proof.
  unfold AxiosErrorMetric.recognised_config, isAxiosError.
  destruct error as [[| |[|]| | | |] e|p]; try discriminate.
  intros H. now exists e.
Qed.

Lemma fromAxiosResponse_present
    (response : AxiosResponse.t) (r : RequestMetric.t) (index : gmap string any)
    (t : number) :
  Config.metadata (AxiosResponse.config response) = Present (Metadata.with_request r index) ->
  exists m,
    AxiosResponseMetric.fromAxiosResponse response t = Returned m
    /\ AxiosResponseMetric.end_time m = t
    /\ AxiosResponseMetric.response_time m = (t - RequestMetric.start_time r)%float.
Proof.
  intros H. unfold AxiosResponseMetric.fromAxiosResponse.
  rewrite !(metadata_metric_request_property_present _ _ _ _ _ H). simpl. now eexists.
Qed.

Lemma fromAxiosResponse_returned
    (response : AxiosResponse.t) (t : number) (m : AxiosResponseMetric.t) :
  AxiosResponseMetric.fromAxiosResponse response t = Returned m ->
  exists r index,
    Config.metadata (AxiosResponse.config response) = Present (Metadata.with_request r index).
Proof.
  unfold AxiosResponseMetric.fromAxiosResponse.
  destruct (metadata_metric_request_property _ "headers" _) as [h|] eqn:Hh;
    simpl; [|discriminate].
  intros _. apply metadata_metric_request_property_returned in Hh as (r & index & H & _).
  now exists r, index.
Qed.

Lemma AxiosErrorMetric_new_present
    (e : AxiosError.t) (config : Config.t) (r : RequestMetric.t)
    (index : gmap string any) (end_time : number) :
  AxiosError.config e = Some config ->
  Config.metadata config = Present (Metadata.with_request r index) ->
  AxiosErrorMetric.new (UAxiosError e) end_time
  = Returned
      {| AxiosErrorMetric.end_time := end_time;
         AxiosErrorMetric.error := UAxiosError e;
         AxiosErrorMetric.method := Config.method config;
         AxiosErrorMetric.url := Config.url config;
         AxiosErrorMetric.headers := Some (Config.headers config);
         AxiosErrorMetric.request := Some
           {| RequestMetric.headers := RequestMetric.headers r;
              RequestMetric.start_time := RequestMetric.start_time r;
              RequestMetric.data := RequestMetric.data r |};
         AxiosErrorMetric.response_time := (end_time - RequestMetric.start_time r)%float |}.
Proof.
  intros Hc H. unfold AxiosErrorMetric.new.
  rewrite recognised_config_axios, Hc.
  now rewrite !(metadata_metric_request_property_present _ _ _ _ _ H).
Qed.

(** ** Response metrics *)

(** C1. For a response whose config carries correlation metadata with start
    timestamp [t0], and an end timestamp [t1] with [t0 <= t1],
    [fromAxiosResponse] returns a metric whose [response_time] is exactly
    [t1 - t0], that is [end_time - start_time] in binary64, and is not
    negative. *)
Theorem fromAxiosResponse_response_time
    (response : AxiosResponse.t) (r : RequestMetric.t) (index : gmap string any)
    (t0 t1 : number) :
  Config.metadata (AxiosResponse.config response)
    = Present (Metadata.with_request r index) ->
  RequestMetric.start_time r = t0 ->
  (t0 <=? t1)%float = true ->
  exists m,
    AxiosResponseMetric.fromAxiosResponse response t1 = Returned m
    /\ AxiosResponseMetric.end_time m = t1
    /\ AxiosResponseMetric.response_time m = (t1 - t0)%float
    /\ (AxiosResponseMetric.response_time m <? 0)%float = false.
Proof.
  intros Hmd Ht0 Hle.
  destruct (fromAxiosResponse_present response r index t1 Hmd) as (m & Hm & Hend & Htime).
  exists m. rewrite Htime, Ht0. repeat split; try assumption.
  now apply float_sub_nonneg.
Qed.

Lemma fromAxiosResponse_response_time_witness :
  exists m,
    AxiosResponseMetric.fromAxiosResponse (ok_response get_items_sent) 150%float
      = Returned m
    /\ AxiosResponseMetric.end_time m = 150%float
    /\ AxiosResponseMetric.response_time m = (150 - 100)%float
    /\ (AxiosResponseMetric.response_time m <? 0)%float = false.
Proof.
  apply (fromAxiosResponse_response_time (ok_response get_items_sent)
           get_items_request ∅);
    reflexivity.
Defined.

(** The scenario of the specification: [GET /items] dispatched at 100 and
    answered with status 200 at 150. *)
Example get_items_scenario :
  completion_map
    (fun m => (AxiosResponseMetric.response_time m,
               ResponseInfo.status_code (AxiosResponseMetric.response m)))
    (AxiosResponseMetric.fromAxiosResponse (ok_response get_items_sent) 150%float)
  = Returned (50%float, 200%float)
  /\ RequestMetric.start_time get_items_request = 100%float.
Proof. split; reflexivity. Qed.

(** Every response metric comes out of the private constructor, which leaves
    [request] unset. *)
Lemma fromAxiosResponse_request
    (response : AxiosResponse.t) (t : number) (m : AxiosResponseMetric.t) :
  AxiosResponseMetric.fromAxiosResponse response t = Returned m ->
  AxiosResponseMetric.request m = None.
Proof.
  unfold AxiosResponseMetric.fromAxiosResponse.
  repeat (destruct (metadata_metric_request_property _ _ _); simpl; [|discriminate]).
  now intros [= <-].
Qed.

(** C2. At the response to [GET /items], whose config stores the request
    metric dispatched at 100, [fromAxiosResponse] returns a metric whose
    [request] field is absent: the claim that the field is present and equal
    to the stored metric fails on the code. *)
Theorem fromAxiosResponse_drops_request :
  Config.metadata (AxiosResponse.config (ok_response get_items_sent))
    = Present (Metadata.with_request get_items_request ∅)
  /\ completion_map AxiosResponseMetric.request
       (AxiosResponseMetric.fromAxiosResponse (ok_response get_items_sent) 150%float)
     = Returned None.
Proof. split; reflexivity. Qed.

(** ** Error metrics *)

(** C3. At an axios error whose config never went through the request
    interceptor, the constructor of [AxiosErrorMetric] throws a [TypeError]:
    the claim that it never throws fails on the code. *)
Theorem AxiosErrorMetric_new_throws :
  isAxiosError (axios_error (Some get_items)) = true
  /\ Config.metadata get_items = Undefined
  /\ AxiosErrorMetric.new (axios_error (Some get_items)) 150%float
     = Thrown (UTypeError "Cannot read properties of undefined (reading 'metric')").
Proof. repeat split. Qed.

(** The constructor returns when the failure is not recognised or its config
    carries the whole metadata, and only then. *)
Lemma AxiosErrorMetric_new_returns (error : unknown) (end_time : number) :
  (exists m, AxiosErrorMetric.new error end_time = Returned m)
  <-> (forall config, AxiosErrorMetric.recognised_config error = Some config ->
         exists r index,
           Config.metadata config = Present (Metadata.with_request r index)).
Proof.
  unfold AxiosErrorMetric.new.
  destruct (AxiosErrorMetric.recognised_config error) as [config|].
  - destruct (metadata_metric_request_property config "headers" RequestMetric.headers)
      as [h|e] eqn:Hh; simpl; split.
    + intros _ c [= <-].
      apply metadata_metric_request_property_returned in Hh as (r & index & H & _).
      now exists r, index.
    + intros H. destruct (H config eq_refl) as (r & index & Hmd).
      rewrite !(metadata_metric_request_property_present _ _ _ _ _ Hmd). now eexists.
    + intros [m Hm]. discriminate.
    + intros H. destruct (H config eq_refl) as (r & index & Hmd).
      rewrite (metadata_metric_request_property_present _ _ _ _ _ Hmd) in Hh.
      discriminate.
  - split; [intros _ c; discriminate|]. intros _. now eexists.
Qed.

(** C4. For a failure that does not pass the [isAxiosError] test, or that
    passes it without a config, the constructor returns a metric with
    [request] absent and [response_time] equal to the sentinel [-1]. *)
Theorem AxiosErrorMetric_new_degraded (error : unknown) (end_time : number) :
  isAxiosError error = false
  \/ (forall flag e, error = UObject flag e -> AxiosError.config e = None) ->
  exists m,
    AxiosErrorMetric.new error end_time = Returned m
    /\ AxiosErrorMetric.request m = None
    /\ AxiosErrorMetric.response_time m = (-1)%float.
Proof.
  intros H. unfold AxiosErrorMetric.new.
  rewrite (recognised_config_none _ H). now eexists.
Qed.

Lemma AxiosErrorMetric_new_degraded_witness :
  (exists m,
     AxiosErrorMetric.new (axios_error None) 150%float = Returned m
     /\ AxiosErrorMetric.request m = None
     /\ AxiosErrorMetric.response_time m = (-1)%float)
  /\ (exists m,
        AxiosErrorMetric.new (UValue (PString "socket hang up")) 150%float = Returned m
        /\ AxiosErrorMetric.request m = None
        /\ AxiosErrorMetric.response_time m = (-1)%float)
  /\ (exists m,
        AxiosErrorMetric.new (flagged_object (JString "true") (Some get_items)) 150%float
          = Returned m
        /\ AxiosErrorMetric.request m = None
        /\ AxiosErrorMetric.response_time m = (-1)%float).
Proof.
  split; [|split].
  - apply (AxiosErrorMetric_new_degraded (axios_error None)).
    right. intros flag e [= _ <-]. reflexivity.
  - apply (AxiosErrorMetric_new_degraded (UValue (PString "socket hang up"))).
    left. reflexivity.
  - apply (AxiosErrorMetric_new_degraded (flagged_object (JString "true") (Some get_items))).
    left. reflexivity.
Defined.

(** An object that is no error of axios but carries [isAxiosError: true] and a
    config passes the test all the same: with a config that has no metadata
    the constructor throws, with the metadata in place it returns the
    correlated metric. *)
Lemma AxiosErrorMetric_new_flagged_object :
  AxiosErrorMetric.new (flagged_object (JBool true) (Some get_items)) 150%float
  = Thrown (UTypeError "Cannot read properties of undefined (reading 'metric')")
  /\ completion_map AxiosErrorMetric.response_time
       (AxiosErrorMetric.new (flagged_object (JBool true) (Some get_items_sent)) 150%float)
     = Returned 50%float.
Proof. split; reflexivity. Qed.

(** C5. For an axios error carrying a config with correlation metadata, the
    constructor returns a metric whose [request] is present with the headers,
    start_time and data of the stored request metric, and whose
    [response_time] is [end_time - request.start_time]. *)
Theorem AxiosErrorMetric_new_correlated
    (e : AxiosError.t) (config : Config.t) (stored : RequestMetric.t)
    (index : gmap string any) (end_time : number) :
  AxiosError.config e = Some config ->
  Config.metadata config = Present (Metadata.with_request stored index) ->
  exists m r,
    AxiosErrorMetric.new (UAxiosError e) end_time = Returned m
    /\ AxiosErrorMetric.request m = Some r
    /\ RequestMetric.headers r = RequestMetric.headers stored
    /\ RequestMetric.start_time r = RequestMetric.start_time stored
    /\ RequestMetric.data r = RequestMetric.data stored
    /\ AxiosErrorMetric.end_time m = end_time
    /\ AxiosErrorMetric.response_time m
       = (AxiosErrorMetric.end_time m - RequestMetric.start_time r)%float.
Proof.
  intros Hc Hmd.
  rewrite (AxiosErrorMetric_new_present e config stored index end_time Hc Hmd).
  eexists _, _. repeat split.
Qed.

Lemma AxiosErrorMetric_new_correlated_witness :
  exists m r,
    AxiosErrorMetric.new (axios_error (Some get_items_sent)) 150%float = Returned m
    /\ AxiosErrorMetric.request m = Some r
    /\ RequestMetric.headers r = request_headers
    /\ RequestMetric.start_time r = 100%float
    /\ RequestMetric.data r = JUndefined
    /\ AxiosErrorMetric.end_time m = 150%float
    /\ AxiosErrorMetric.response_time m
       = (AxiosErrorMetric.end_time m - RequestMetric.start_time r)%float.
Proof.
  apply (AxiosErrorMetric_new_correlated _ get_items_sent get_items_request ∅);
    reflexivity.
Defined.

(** C8. For an axios error with a config, the [headers] of the error metric
    are the headers of the config, the request headers, whatever the error's
    response carries; the [headers] of a response metric are the headers of
    the response. *)
Theorem error_metric_headers_are_request_headers
    (e : AxiosError.t) (config : Config.t) (response : AxiosResponse.t) (t : number) :
  AxiosError.config e = Some config ->
  (forall m, AxiosErrorMetric.new (UAxiosError e) t = Returned m ->
     AxiosErrorMetric.headers m = Some (Config.headers config))
  /\ (forall m, AxiosResponseMetric.fromAxiosResponse response t = Returned m ->
        AxiosResponseMetric.headers m = Some (AxiosResponse.headers response)).
Proof.
  intros Hc. split; intros m.
  - unfold AxiosErrorMetric.new. rewrite recognised_config_axios, Hc.
    repeat (destruct (metadata_metric_request_property _ _ _); simpl; [|discriminate]).
    now intros [= <-].
  - unfold AxiosResponseMetric.fromAxiosResponse.
    repeat (destruct (metadata_metric_request_property _ _ _); simpl; [|discriminate]).
    now intros [= <-].
Qed.

Lemma error_metric_headers_are_request_headers_witness :
  (exists m,
     AxiosErrorMetric.new (axios_error (Some get_items_sent)) 150%float = Returned m
     /\ AxiosErrorMetric.headers m = Some request_headers)
  /\ (exists m,
        AxiosResponseMetric.fromAxiosResponse (ok_response get_items_sent) 150%float
          = Returned m
        /\ AxiosResponseMetric.headers m = Some response_headers).
Proof.
  pose proof (error_metric_headers_are_request_headers
                {| AxiosError.message := "Request failed with status code 500";
                   AxiosError.code := Some "ERR_BAD_RESPONSE";
                   AxiosError.config := Some get_items_sent;
                   AxiosError.response := Some (ok_response get_items_sent) |}
                get_items_sent (ok_response get_items_sent) 150%float eq_refl)
    as [Herr Hres].
  split; eexists; (split; [reflexivity|]).
  - apply Herr. reflexivity.
  - apply Hres. reflexivity.
Defined.

(** ** The interceptors *)

Ltac run_hook :=
  unfold useRequestMetric_onFulfilled, useResponseMetric_onFulfilled,
    useResponseMetric_onRejected, bind, emit, performance_now, lift, ret;
  simpl.

(** What [useRequestMetric], [useResponseMetric] and [use] register. *)
Lemma useRequestMetric_registers (axios : AxiosInstance) (cb : option RequestMetricCallback) :
  interceptors_request (useRequestMetric axios cb)
  = interceptors_request axios ++ [mkInterceptor (useRequestMetric_onFulfilled cb) None]
  /\ interceptors_response (useRequestMetric axios cb) = interceptors_response axios.
Proof. split; reflexivity. Qed.

Lemma useResponseMetric_registers (axios : AxiosInstance)
    (res : option ResponseMetricCallback) (err : option ErrorMetricCallback) :
  interceptors_response (useResponseMetric axios res err)
  = interceptors_response axios
      ++ [mkInterceptor (useResponseMetric_onFulfilled res)
            (Some (useResponseMetric_onRejected err))]
  /\ interceptors_request (useResponseMetric axios res err) = interceptors_request axios.
Proof. split; reflexivity. Qed.

Lemma use_registers (axios : AxiosInstance)
    (rq : option RequestMetricCallback) (rs : option ResponseMetricCallback) :
  interceptors_request (use axios rq rs)
  = interceptors_request axios ++ [mkInterceptor (useRequestMetric_onFulfilled rq) None]
  /\ interceptors_response (use axios rq rs)
     = interceptors_response axios
         ++ [mkInterceptor (useResponseMetric_onFulfilled rs)
               (Some (useResponseMetric_onRejected None))].
Proof. split; reflexivity. Qed.

(** A callback that throws ends the success hook with its exception, and a
    response whose config carries no metadata ends it with the [TypeError] of
    the metric computation. *)
Lemma onFulfilled_callback_throws :
  fst (useResponseMetric_onFulfilled (Some failing_response_cb)
         (ok_response get_items_sent) world1)
  = Thrown (UValue (PString "callback failed")).
Proof. reflexivity. Qed.

Lemma onFulfilled_correlation_miss_throws :
  fst (useResponseMetric_onFulfilled (Some quiet_response_cb)
         (ok_response get_items) world1)
  = Thrown (UTypeError "Cannot read properties of undefined (reading 'metric')").
Proof. reflexivity. Qed.

(** Whenever the metric computation and the callback complete without
    throwing, and always when no callback is registered, the success hook
    returns the response it received and the error hook returns a promise
    rejected with the error it received; a hook that returns never returns
    anything else. *)
Lemma useResponseMetric_forwards_when_complete
    (res : option ResponseMetricCallback) (err : option ErrorMetricCallback)
    (response : AxiosResponse.t) (error : unknown) (w : World) :
  (match res with
   | Some f =>
       exists m,
         AxiosResponseMetric.fromAxiosResponse response (performance w (reads w))
           = Returned m
         /\ f m response = Returned tt
   | None => True
   end ->
   fst (useResponseMetric_onFulfilled res response w) = Returned response)
  /\ (match err with
      | Some f =>
          exists m,
            AxiosErrorMetric.new error (performance w (reads w)) = Returned m
            /\ f m error = Returned tt
      | None => True
      end ->
      fst (useResponseMetric_onRejected err error w) = Returned (Rejected error)
      /\ settle (fst (useResponseMetric_onRejected err error w)) = Rejected error)
  /\ (forall r, fst (useResponseMetric_onFulfilled res response w) = Returned r ->
        r = response)
  /\ (forall p, fst (useResponseMetric_onRejected err error w) = Returned p ->
        p = Rejected error).
Proof.
  split; [|split; [|split]].
  - destruct res as [f|]; [|reflexivity].
    intros (m & Hm & Hf). run_hook. rewrite Hm. simpl. now rewrite Hf.
  - destruct err as [f|]; [|split; reflexivity].
    intros (m & Hm & Hf). run_hook. rewrite Hm. simpl. now rewrite Hf.
  - intros r. destruct res as [f|]; run_hook; [|congruence].
    destruct (AxiosResponseMetric.fromAxiosResponse _ _) as [m|]; simpl; [|discriminate].
    destruct (f m response); simpl; congruence.
  - intros p. destruct err as [f|]; run_hook; [|congruence].
    destruct (AxiosErrorMetric.new _ _) as [m|]; simpl; [|discriminate].
    destruct (f m error); simpl; congruence.
Qed.

(** C6. At an axios error whose config never went through the request
    interceptor, with an error callback that returns, the error hook does not
    re-signal the failure it received: the constructor of [AxiosErrorMetric]
    throws before the callback and before [Promise.reject(error)], and the
    promise chain is rejected with the [TypeError] instead. *)
Theorem useResponseMetric_onRejected_rewrites_error :
  isAxiosError (axios_error (Some get_items)) = true
  /\ fst (useResponseMetric_onRejected (Some quiet_error_cb)
            (axios_error (Some get_items)) world1)
     = Thrown (UTypeError "Cannot read properties of undefined (reading 'metric')")
  /\ settle (fst (useResponseMetric_onRejected (Some quiet_error_cb)
                    (axios_error (Some get_items)) world1))
     <> Rejected (axios_error (Some get_items))
  /\ settle (fst (useResponseMetric_onRejected None
                    (axios_error (Some get_items)) world1))
     = Rejected (axios_error (Some get_items)).
Proof.
  split; [reflexivity|]. split; [reflexivity|]. split; [|reflexivity].
  intros H. discriminate H.
Qed.

(** C7. With no error callback, as [use] registers it, the error hook leaves
    the world as it found it (no reading of the clock, no [AxiosErrorMetric]
    constructed, no callback invoked), throws nothing, and returns a promise
    rejected with the failure it received. *)
Theorem onRejected_without_callback :
  (forall (error : unknown) (w : World),
     useResponseMetric_onRejected None error w = (Returned (Rejected error), w)
     /\ settle (fst (useResponseMetric_onRejected None error w)) = Rejected error)
  /\ (forall axios rq rs,
        exists onFulfilled,
          interceptors_response (use axios rq rs)
          = interceptors_response axios
              ++ [mkInterceptor onFulfilled (Some (useResponseMetric_onRejected None))]).
Proof.
  split.
  - intros error w. split; reflexivity.
  - intros axios rq rs. eexists. apply use_registers.
Qed.

(** ** The request interceptor *)

(** The run of the request interceptor: one construction, one reading of the
    clock, the annotated config handed to the callback and returned. *)
Lemma useRequestMetric_onFulfilled_run
    (cb : option RequestMetricCallback) (config : Config.t) (w : World) :
  let metric := AxiosRequestMetric.new config (performance w (reads w)) in
  let sent := annotate config metric in
  useRequestMetric_onFulfilled cb config w
  = match cb with
    | Some f =>
        (completion_map (fun _ => sent) (f metric sent),
         {| performance := performance w;
            reads := S (reads w);
            log := (log w ++ [NewRequestMetric config]) ++ [CallRequestCb metric sent] |})
    | None =>
        (Returned sent,
         {| performance := performance w;
            reads := S (reads w);
            log := log w ++ [NewRequestMetric config] |})
    end.
Proof.
  destruct cb as [f|]; run_hook; [|reflexivity].
  now destruct (f _ _).
Qed.

(** C9. The request metric built by the request interceptor stores the
    method, url, headers and data of the config as given, an absent method or
    url staying absent; the config the interceptor returns has the same
    method, url, headers, data and other options, and differs from the one it
    received in [metadata] only; it returns whenever the callback does. *)
Theorem useRequestMetric_preserves_request
    (cb : option RequestMetricCallback) (config : Config.t) (w : World) :
  let metric := AxiosRequestMetric.new config (performance w (reads w)) in
  (AxiosRequestMetric.method metric = Config.method config
   /\ AxiosRequestMetric.url metric = Config.url config
   /\ AxiosRequestMetric.headers metric = Config.headers config
   /\ AxiosRequestMetric.data metric = Config.data config
   /\ (Config.method config = None -> AxiosRequestMetric.method metric = None)
   /\ (Config.url config = None -> AxiosRequestMetric.url metric = None))
  /\ (forall c, fst (useRequestMetric_onFulfilled cb config w) = Returned c ->
        c = Config.set_metadata config
              (Metadata.with_request (AxiosRequestMetric.as_RequestMetric metric) ∅)
        /\ Config.method c = Config.method config
        /\ Config.url c = Config.url config
        /\ Config.headers c = Config.headers config
        /\ Config.data c = Config.data config
        /\ Config.others c = Config.others config)
  /\ (forall f, cb = Some f ->
        exists c,
          last (log (snd (useRequestMetric_onFulfilled cb config w)))
          = Some (CallRequestCb metric c)
          /\ Config.method c = Config.method config
          /\ Config.url c = Config.url config
          /\ Config.headers c = Config.headers config
          /\ Config.data c = Config.data config
          /\ Config.others c = Config.others config)
  /\ (match cb with
      | Some f => f metric (annotate config metric) = Returned tt
      | None => True
      end ->
      exists c, fst (useRequestMetric_onFulfilled cb config w) = Returned c).
Proof.
  intros metric. rewrite useRequestMetric_onFulfilled_run. fold metric.
  split; [|split; [|split]].
  - repeat split; auto.
  - intros c Hc.
    assert (c = annotate config metric) as ->; [|repeat split].
    destruct cb as [f|]; simpl in Hc; [|congruence].
    destruct (f _ _); simpl in Hc; congruence.
  - intros f ->. exists (annotate config metric). simpl.
    rewrite last_snoc. repeat split.
  - destruct cb as [f|]; simpl.
    + intros ->. now eexists.
    + intros _. now eexists.
Qed.

Lemma useRequestMetric_preserves_request_witness :
  (exists c,
     fst (useRequestMetric_onFulfilled (Some quiet_request_cb) get_items world0)
       = Returned c
     /\ Config.method c = Some "get"
     /\ Config.url c = Some "/items"
     /\ Config.headers c = request_headers
     /\ Config.data c = JUndefined
     /\ Config.others c = {[ "timeout" := JNumber 1000%float ]})
  /\ AxiosRequestMetric.method (AxiosRequestMetric.new bare_config 100%float) = None
  /\ AxiosRequestMetric.url (AxiosRequestMetric.new bare_config 100%float) = None.
Proof.
  pose proof (useRequestMetric_preserves_request (Some quiet_request_cb) get_items world0)
    as (_ & Hframe & _ & Hreturns).
  pose proof (useRequestMetric_preserves_request None bare_config world0)
    as ((_ & _ & _ & _ & Hmethod & Hurl) & _).
  split; [|split].
  - destruct (Hreturns eq_refl) as [c Hc]. exists c.
    destruct (Hframe c Hc) as (_ & Hfields). split; [exact Hc|exact Hfields].
  - apply Hmethod. reflexivity.
  - apply Hurl. reflexivity.
Defined.

(** C10. The config the request interceptor returns, and the one it hands to
    the callback, carry a [metadata] made of the [metric.request] entry alone:
    no key of the index signature is defined in it, whatever [metadata] the
    config carried before. *)
Theorem useRequestMetric_replaces_metadata
    (cb : option RequestMetricCallback) (config : Config.t) (w : World) :
  let metric := AxiosRequestMetric.new config (performance w (reads w)) in
  (forall c, fst (useRequestMetric_onFulfilled cb config w) = Returned c ->
     exists md,
       Config.metadata c = Present md
       /\ Metadata.metric md
          = Present
              {| MetadataMetric.request :=
                   Present (AxiosRequestMetric.as_RequestMetric metric) |}
       /\ Metadata.index md = ∅
       /\ forall key : string, Metadata.index md !! key = None)
  /\ (forall f, cb = Some f ->
        exists c md,
          last (log (snd (useRequestMetric_onFulfilled cb config w)))
          = Some (CallRequestCb metric c)
          /\ Config.metadata c = Present md
          /\ Metadata.metric md
             = Present
                 {| MetadataMetric.request :=
                      Present (AxiosRequestMetric.as_RequestMetric metric) |}
          /\ forall key : string, Metadata.index md !! key = None)
  /\ (cb = None -> exists c, fst (useRequestMetric_onFulfilled cb config w) = Returned c).
Proof.
  intros metric. rewrite useRequestMetric_onFulfilled_run. fold metric.
  split; [|split].
  - intros c Hc.
    assert (c = annotate config metric) as ->.
    { destruct cb as [f|]; simpl in Hc; [|congruence].
      destruct (f _ _); simpl in Hc; congruence. }
    eexists. repeat split.
  - intros f ->. eexists (annotate config metric), _. simpl.
    rewrite last_snoc. repeat split.
  - intros ->. now eexists.
Qed.

Lemma useRequestMetric_replaces_metadata_witness :
  (exists old,
     Config.metadata get_items_tagged = Present old
     /\ Metadata.index old !! "traceId" = Some (JString "abc"))
  /\ exists c md,
       fst (useRequestMetric_onFulfilled None get_items_tagged world0) = Returned c
       /\ Config.metadata c = Present md
       /\ Metadata.index md !! "traceId" = None
       /\ Metadata.metric md
          = Present
              {| MetadataMetric.request :=
                   Present
                     (AxiosRequestMetric.as_RequestMetric
                        (AxiosRequestMetric.new get_items_tagged 100%float)) |}.
Proof.
  split; [eexists; split; reflexivity|].
  pose proof (useRequestMetric_replaces_metadata None get_items_tagged world0)
    as (Hfresh & _ & Hreturns).
  destruct (Hreturns eq_refl) as [c Hc].
  destruct (Hfresh c Hc) as (md & Hmd & Hreq & _ & Hkeys).
  exists c, md. repeat split; [exact Hc|exact Hmd|apply Hkeys|exact Hreq].
Defined.

(** ** Scenarios through the interceptors *)

(** The error hook on an axios error whose config carries no metadata, with
    an error callback that returns: the hook ends with the [TypeError] of the
    constructor. *)
Lemma onRejected_correlation_miss_throws :
  settle (fst (useResponseMetric_onRejected (Some quiet_error_cb)
                 (axios_error (Some get_items)) world1))
  = Rejected (UTypeError "Cannot read properties of undefined (reading 'metric')").
Proof. reflexivity. Qed.

(** [GET /items] through both hooks: the request hook reads 100, the response
    hook reads 150, and the response callback is given a metric with
    [response_time] 50 and [status_code] 200. *)
Example get_items_round_trip :
  match useRequestMetric_onFulfilled (Some quiet_request_cb) get_items world0 with
  | (Returned sent, w) =>
      match useResponseMetric_onFulfilled (Some quiet_response_cb) (ok_response sent) w with
      | (Returned response, w') =>
          response = ok_response sent
          /\ reads w' = 2
          /\ exists m,
               last (log w') = Some (CallResponseCb m response)
               /\ AxiosResponseMetric.response_time m = 50%float
               /\ AxiosResponseMetric.end_time m = 150%float
               /\ ResponseInfo.status_code (AxiosResponseMetric.response m) = 200%float
      | (Thrown _, _) => False
      end
  | (Thrown _, _) => False
  end.
Proof. vm_compute. repeat split. eexists. repeat split. Qed.

(** * Further properties of the interceptors *)

(** ** Runs of the response hooks *)

Lemma useResponseMetric_onFulfilled_run
    (res : option ResponseMetricCallback) (response : AxiosResponse.t) (w : World) :
  useResponseMetric_onFulfilled res response w
  = match res with
    | Some f =>
        match AxiosResponseMetric.fromAxiosResponse response (performance w (reads w)) with
        | Returned m =>
            (completion_map (fun _ => response) (f m response),
             {| performance := performance w;
                reads := S (reads w);
                log := (log w ++ [FromAxiosResponse response])
                         ++ [CallResponseCb m response] |})
        | Thrown e =>
            (Thrown e,
             {| performance := performance w;
                reads := S (reads w);
                log := log w ++ [FromAxiosResponse response] |})
        end
    | None => (Returned response, w)
    end.
Proof.
  destruct res as [f|]; run_hook; [|reflexivity].
  destruct (AxiosResponseMetric.fromAxiosResponse _ _) as [m|e]; simpl; [|reflexivity].
  now destruct (f m response).
Qed.

Lemma useResponseMetric_onRejected_run
    (err : option ErrorMetricCallback) (error : unknown) (w : World) :
  useResponseMetric_onRejected err error w
  = match err with
    | Some f =>
        match AxiosErrorMetric.new error (performance w (reads w)) with
        | Returned m =>
            (completion_map (fun _ => Rejected error) (f m error),
             {| performance := performance w;
                reads := S (reads w);
                log := (log w ++ [NewErrorMetric error]) ++ [CallErrorCb m error] |})
        | Thrown e =>
            (Thrown e,
             {| performance := performance w;
                reads := S (reads w);
                log := log w ++ [NewErrorMetric error] |})
        end
    | None => (Returned (Rejected error), w)
    end.
Proof.
  destruct err as [f|]; run_hook; [|reflexivity].
  destruct (AxiosErrorMetric.new _ _) as [m|e]; simpl; [|reflexivity].
  now destruct (f m error).
Qed.

Lemma added_app (w w' : World) (evs : list event) :
  log w' = log w ++ evs -> added w w' = evs.
Proof. unfold added. intros ->. apply drop_app_length. Qed.

(** ** When the code throws *)

(** X13. [fromAxiosResponse] returns a metric when the config of the response
    carries a metadata with its [metric] and [request] entries. When
    [metadata], [metric] or [request] is [undefined] or [null], it throws the
    [TypeError] of the first read on it: of [metric] on the metadata, of
    [request] on the metric entry, of [headers] on the request. *)
Theorem fromAxiosResponse_correlation_reads (response : AxiosResponse.t) (t : number) :
  let config := AxiosResponse.config response in
  let run := AxiosResponseMetric.fromAxiosResponse response t in
  (Config.metadata config = Undefined ->
   run = Thrown (UTypeError "Cannot read properties of undefined (reading 'metric')"))
  /\ (Config.metadata config = Null ->
      run = Thrown (UTypeError "Cannot read properties of null (reading 'metric')"))
  /\ (forall md,
        Config.metadata config = Present md ->
        (Metadata.metric md = Undefined ->
         run = Thrown (UTypeError "Cannot read properties of undefined (reading 'request')"))
        /\ (Metadata.metric md = Null ->
            run = Thrown (UTypeError "Cannot read properties of null (reading 'request')"))
        /\ (forall entry,
              Metadata.metric md = Present entry ->
              (MetadataMetric.request entry = Undefined ->
               run = Thrown
                       (UTypeError "Cannot read properties of undefined (reading 'headers')"))
              /\ (MetadataMetric.request entry = Null ->
                  run = Thrown
                          (UTypeError "Cannot read properties of null (reading 'headers')"))
              /\ (forall r,
                    MetadataMetric.request entry = Present r ->
                    exists m, run = Returned m))).
Proof.
  intros config run. subst config run.
  split; [|split].
  - intros H. unfold AxiosResponseMetric.fromAxiosResponse,
      metadata_metric_request_property, metadata_metric_request.
    now rewrite H.
  - intros H. unfold AxiosResponseMetric.fromAxiosResponse,
      metadata_metric_request_property, metadata_metric_request.
    now rewrite H.
  - intros [metric index] H. simpl.
    unfold AxiosResponseMetric.fromAxiosResponse,
      metadata_metric_request_property, metadata_metric_request.
    rewrite H. simpl.
    split; [now intros ->|]. split; [now intros ->|].
    intros [request] ->. simpl.
    split; [now intros ->|]. split; [now intros ->|].
    intros r ->. simpl. now eexists.
Qed.

(** X14. For a failure that passes the [isAxiosError] test with a config, the
    constructor of [AxiosErrorMetric] throws in the same six cases: when the
    [metadata] of the config, its [metric] or its [request] is [undefined] or
    [null], with the [TypeError] of the first read on it; it returns when all
    three are present. *)
Theorem AxiosErrorMetric_new_correlation_reads
    (e : AxiosError.t) (config : Config.t) (end_time : number) :
  AxiosError.config e = Some config ->
  let run := AxiosErrorMetric.new (UAxiosError e) end_time in
  (Config.metadata config = Undefined ->
   run = Thrown (UTypeError "Cannot read properties of undefined (reading 'metric')"))
  /\ (Config.metadata config = Null ->
      run = Thrown (UTypeError "Cannot read properties of null (reading 'metric')"))
  /\ (forall md,
        Config.metadata config = Present md ->
        (Metadata.metric md = Undefined ->
         run = Thrown (UTypeError "Cannot read properties of undefined (reading 'request')"))
        /\ (Metadata.metric md = Null ->
            run = Thrown (UTypeError "Cannot read properties of null (reading 'request')"))
        /\ (forall entry,
              Metadata.metric md = Present entry ->
              (MetadataMetric.request entry = Undefined ->
               run = Thrown
                       (UTypeError "Cannot read properties of undefined (reading 'headers')"))
              /\ (MetadataMetric.request entry = Null ->
                  run = Thrown
                          (UTypeError "Cannot read properties of null (reading 'headers')"))
              /\ (forall r,
                    MetadataMetric.request entry = Present r ->
                    exists m, run = Returned m))).
Proof.
  intros Hc run. subst run.
  unfold AxiosErrorMetric.new. rewrite recognised_config_axios, Hc.
  unfold metadata_metric_request_property, metadata_metric_request.
  split; [|split].
  - now intros ->.
  - now intros ->.
  - intros [metric index] ->. simpl.
    split; [now intros ->|]. split; [now intros ->|].
    intros [request] ->. simpl.
    split; [now intros ->|]. split; [now intros ->|].
    intros r ->. simpl. now eexists.
Qed.

Lemma AxiosErrorMetric_new_correlation_reads_witness :
  AxiosErrorMetric.new (axios_error (Some get_items_null_metadata)) 150%float
  = Thrown (UTypeError "Cannot read properties of null (reading 'metric')")
  /\ AxiosErrorMetric.new (axios_error (Some get_items_no_metric)) 150%float
     = Thrown (UTypeError "Cannot read properties of undefined (reading 'request')")
  /\ AxiosErrorMetric.new (axios_error (Some get_items_null_metric)) 150%float
     = Thrown (UTypeError "Cannot read properties of null (reading 'request')")
  /\ AxiosErrorMetric.new (axios_error (Some get_items_no_request)) 150%float
     = Thrown (UTypeError "Cannot read properties of undefined (reading 'headers')")
  /\ exists m,
       AxiosErrorMetric.new (axios_error (Some get_items_sent)) 150%float = Returned m.
Proof.
  pose proof (fun config =>
                AxiosErrorMetric_new_correlation_reads
                  {| AxiosError.message := "Request failed with status code 500";
                     AxiosError.code := Some "ERR_BAD_RESPONSE";
                     AxiosError.config := Some config;
                     AxiosError.response := Some (ok_response config) |}
                  config 150%float eq_refl) as H.
  split; [|split; [|split; [|split]]].
  - apply (H get_items_null_metadata). reflexivity.
  - destruct (H get_items_no_metric) as (_ & _ & Hmd).
    destruct (Hmd _ eq_refl) as (Hmetric & _). apply Hmetric. reflexivity.
  - destruct (H get_items_null_metric) as (_ & _ & Hmd).
    destruct (Hmd _ eq_refl) as (_ & Hmetric & _). apply Hmetric. reflexivity.
  - destruct (H get_items_no_request) as (_ & _ & Hmd).
    destruct (Hmd _ eq_refl) as (_ & _ & Hentry).
    destruct (Hentry _ eq_refl) as (Hrequest & _). apply Hrequest. reflexivity.
  - destruct (H get_items_sent) as (_ & _ & Hmd).
    destruct (Hmd _ eq_refl) as (_ & _ & Hentry).
    destruct (Hentry _ eq_refl) as (_ & _ & Hrequest).
    apply (Hrequest _ eq_refl).
Defined.

(** X1. The success hook throws exactly when a response callback is
    registered and either [fromAxiosResponse] throws, then with its
    [TypeError], or the callback throws, then with the callback's exception;
    in every other case, a hook without callback on a response without
    metadata included, it returns the response it received. *)
Theorem onFulfilled_throws_iff
    (res : option ResponseMetricCallback) (response : AxiosResponse.t) (w : World) :
  (forall e,
     fst (useResponseMetric_onFulfilled res response w) = Thrown e
     <-> exists f,
           res = Some f
           /\ (AxiosResponseMetric.fromAxiosResponse response (performance w (reads w))
                = Thrown e
               \/ exists m,
                    AxiosResponseMetric.fromAxiosResponse response (performance w (reads w))
                      = Returned m
                    /\ f m response = Thrown e))
  /\ (fst (useResponseMetric_onFulfilled res response w) = Returned response
      \/ exists e, fst (useResponseMetric_onFulfilled res response w) = Thrown e)
  /\ (res = None -> useResponseMetric_onFulfilled res response w = (Returned response, w)).
Proof.
  rewrite useResponseMetric_onFulfilled_run.
  destruct res as [f|]; simpl.
  2:{ split; [|split; [now left|reflexivity]].
      intros e. split; [discriminate|]. intros (f & Hf & _). discriminate. }
  destruct (AxiosResponseMetric.fromAxiosResponse response (performance w (reads w)))
    as [m|x]; simpl.
  - split; [|split; [|discriminate]].
    + intros e. split.
      * intros He. exists f. split; [reflexivity|]. right. exists m. split; [reflexivity|].
        destruct (f m response); simpl in He; congruence.
      * intros (f' & [= <-] & [Habs|(m' & [= <-] & Hf)]); [discriminate|].
        now rewrite Hf.
    + destruct (f m response); simpl; [now left|right; now eexists].
  - split; [|split; [|discriminate]].
    + intros e. split.
      * intros [= <-]. exists f. split; [reflexivity|]. now left.
      * intros (f' & _ & [[= <-]|(m & Hm & _)]); [reflexivity|discriminate].
    + right. now eexists.
Qed.

(** X2. The error hook throws exactly when an error callback is registered
    and either the constructor of [AxiosErrorMetric] throws, then with its
    [TypeError], or the callback throws, then with the callback's exception;
    in every other case it returns a promise rejected with the failure it
    received. *)
Theorem onRejected_throws_iff
    (err : option ErrorMetricCallback) (error : unknown) (w : World) :
  (forall x,
     fst (useResponseMetric_onRejected err error w) = Thrown x
     <-> exists f,
           err = Some f
           /\ (AxiosErrorMetric.new error (performance w (reads w)) = Thrown x
               \/ exists m,
                    AxiosErrorMetric.new error (performance w (reads w)) = Returned m
                    /\ f m error = Thrown x))
  /\ (fst (useResponseMetric_onRejected err error w) = Returned (Rejected error)
      \/ exists x, fst (useResponseMetric_onRejected err error w) = Thrown x).
Proof.
  rewrite useResponseMetric_onRejected_run.
  destruct err as [f|]; simpl.
  2:{ split; [|now left]. intros x. split; [discriminate|].
      intros (f & Hf & _). discriminate. }
  destruct (AxiosErrorMetric.new error (performance w (reads w))) as [m|e]; simpl.
  - split.
    + intros x. split.
      * intros Hx. exists f. split; [reflexivity|]. right. exists m. split; [reflexivity|].
        destruct (f m error); simpl in Hx; congruence.
      * intros (f' & [= <-] & [Habs|(m' & [= <-] & Hf)]); [discriminate|].
        now rewrite Hf.
    + destruct (f m error); simpl; [now left|right; now eexists].
  - split.
    + intros x. split.
      * intros [= <-]. exists f. split; [reflexivity|]. now left.
      * intros (f' & _ & [[= <-]|(m & Hm & _)]); [reflexivity|discriminate].
    + right. now eexists.
Qed.

(** X3. The request hook never throws on its own: it throws exactly when a
    request callback is registered and throws, and then with the callback's
    exception; otherwise it returns the annotated config. It reads the clock
    once in either case. *)
Theorem onRequest_throws_iff
    (cb : option RequestMetricCallback) (config : Config.t) (w : World) :
  let metric := AxiosRequestMetric.new config (performance w (reads w)) in
  (forall e,
     fst (useRequestMetric_onFulfilled cb config w) = Thrown e
     <-> exists f, cb = Some f /\ f metric (annotate config metric) = Thrown e)
  /\ (fst (useRequestMetric_onFulfilled cb config w) = Returned (annotate config metric)
      \/ exists e, fst (useRequestMetric_onFulfilled cb config w) = Thrown e)
  /\ reads (snd (useRequestMetric_onFulfilled cb config w)) = S (reads w).
Proof.
  intros metric. rewrite useRequestMetric_onFulfilled_run. fold metric.
  destruct cb as [f|]; simpl.
  - split; [|split; [|reflexivity]].
    + intros e. split.
      * intros He. exists f. split; [reflexivity|].
        destruct (f metric _); simpl in He; congruence.
      * intros (f' & [= <-] & Hf). now rewrite Hf.
    + destruct (f metric _); simpl; [now left|right; now eexists].
  - split; [|split; [now left|reflexivity]].
    intros e. split; [discriminate|]. intros (f & Hf & _). discriminate.
Qed.

(** ** What a callback is given *)

(** X12. Whenever the success hook invokes the response callback, it passes
    the response it received and a metric of that response: method and url of
    the request config, headers, status, status text and body of the response,
    the clock reading as [end_time], and [response_time] counted from the
    [start_time] stored in the metadata of the config. *)
Theorem response_callback_arguments
    (res : option ResponseMetricCallback) (response : AxiosResponse.t) (w : World)
    (m : AxiosResponseMetric.t) (r : AxiosResponse.t) :
  In (CallResponseCb m r) (added w (snd (useResponseMetric_onFulfilled res response w))) ->
  r = response
  /\ AxiosResponseMetric.method m = Config.method (AxiosResponse.config response)
  /\ AxiosResponseMetric.url m = Config.url (AxiosResponse.config response)
  /\ AxiosResponseMetric.headers m = Some (AxiosResponse.headers response)
  /\ ResponseInfo.status_code (AxiosResponseMetric.response m) = AxiosResponse.status response
  /\ ResponseInfo.status_message (AxiosResponseMetric.response m)
     = AxiosResponse.statusText response
  /\ ResponseInfo.data (AxiosResponseMetric.response m) = AxiosResponse.data response
  /\ AxiosResponseMetric.end_time m = performance w (reads w)
  /\ exists r index,
       Config.metadata (AxiosResponse.config response)
         = Present (Metadata.with_request r index)
       /\ AxiosResponseMetric.response_time m
          = (performance w (reads w) - RequestMetric.start_time r)%float.
Proof.
  rewrite useResponseMetric_onFulfilled_run.
  destruct res as [f|]; simpl.
  2:{ rewrite (added_app w w []) by now rewrite app_nil_r. intros []. }
  destruct (AxiosResponseMetric.fromAxiosResponse response (performance w (reads w)))
    as [m'|e] eqn:Hm; simpl.
  - rewrite (added_app w _ [FromAxiosResponse response; CallResponseCb m' response])
      by (simpl; now rewrite <- app_assoc).
    intros [H|[H|[]]]; [discriminate|]. injection H as <- <-.
    destruct (fromAxiosResponse_returned _ _ _ Hm) as (r & index & Hmd).
    revert Hm. unfold AxiosResponseMetric.fromAxiosResponse.
    rewrite !(metadata_metric_request_property_present _ _ _ _ _ Hmd). simpl.
    intros [= <-]. repeat split. now exists r, index.
  - rewrite (added_app w _ [FromAxiosResponse response]) by reflexivity.
    intros [H|[]]. discriminate.
Qed.

Lemma response_callback_arguments_witness :
  exists m,
    In (CallResponseCb m (ok_response get_items_sent))
       (added world1
          (snd (useResponseMetric_onFulfilled (Some failing_response_cb)
                  (ok_response get_items_sent) world1)))
    /\ AxiosResponseMetric.method m = Some "get"
    /\ AxiosResponseMetric.url m = Some "/items"
    /\ AxiosResponseMetric.headers m = Some response_headers
    /\ ResponseInfo.status_code (AxiosResponseMetric.response m) = 200%float
    /\ AxiosResponseMetric.end_time m = 150%float.
Proof.
  eexists. split; [right; left; reflexivity|].
  pose proof (response_callback_arguments (Some failing_response_cb)
                (ok_response get_items_sent) world1 _ _
                (or_intror (or_introl eq_refl)))
    as (_ & Hmethod & Hurl & Hheaders & Hstatus & _ & _ & Hend & _).
  repeat split; assumption.
Defined.

(** X11. Whenever the error hook invokes the error callback, it passes the
    failure it received and the metric the constructor returned for it at the
    clock reading: the [error] field of the metric is that failure and
    [end_time] is the reading. *)
Theorem error_callback_arguments
    (err : option ErrorMetricCallback) (error : unknown) (w : World)
    (m : AxiosErrorMetric.t) (x : unknown) :
  In (CallErrorCb m x) (added w (snd (useResponseMetric_onRejected err error w))) ->
  x = error
  /\ AxiosErrorMetric.new error (performance w (reads w)) = Returned m
  /\ AxiosErrorMetric.error m = error
  /\ AxiosErrorMetric.end_time m = performance w (reads w).
Proof.
  rewrite useResponseMetric_onRejected_run.
  destruct err as [f|]; simpl.
  2:{ rewrite (added_app w w []) by now rewrite app_nil_r. intros []. }
  destruct (AxiosErrorMetric.new error (performance w (reads w))) as [m'|e] eqn:Hnew; simpl.
  - rewrite (added_app w _ [NewErrorMetric error; CallErrorCb m' error])
      by (simpl; now rewrite <- app_assoc).
    intros [H|[H|[]]]; [discriminate|]. injection H as <- <-.
    split; [reflexivity|]. split; [reflexivity|].
    revert Hnew. unfold AxiosErrorMetric.new.
    destruct (AxiosErrorMetric.recognised_config error) as [config|].
    + repeat (destruct (metadata_metric_request_property _ _ _); simpl; [|discriminate]).
      intros [= <-]. now split.
    + intros [= <-]. now split.
  - rewrite (added_app w _ [NewErrorMetric error]) by reflexivity.
    intros [H|[]]. discriminate.
Qed.

Lemma error_callback_arguments_witness :
  exists m,
    In (CallErrorCb m (UValue (PString "socket hang up")))
       (added world1
          (snd (useResponseMetric_onRejected (Some failing_error_cb)
                  (UValue (PString "socket hang up")) world1)))
    /\ AxiosErrorMetric.error m = UValue (PString "socket hang up")
    /\ AxiosErrorMetric.end_time m = 150%float.
Proof.
  eexists. split; [right; left; reflexivity|].
  pose proof (error_callback_arguments (Some failing_error_cb)
                (UValue (PString "socket hang up")) world1 _ _
                (or_intror (or_introl eq_refl)))
    as (_ & _ & Herror & Hend).
  split; assumption.
Defined.

(** ** A transaction through the request hook and a response hook *)

(** What the request hook returns and the world it leaves, when it returns. *)
Lemma useRequestMetric_onFulfilled_returned
    (cb : option RequestMetricCallback) (config sent : Config.t) (w w1 : World) :
  useRequestMetric_onFulfilled cb config w = (Returned sent, w1) ->
  sent = annotate config (AxiosRequestMetric.new config (performance w (reads w)))
  /\ performance w1 = performance w
  /\ reads w1 = S (reads w).
Proof.
  rewrite useRequestMetric_onFulfilled_run.
  destruct cb as [f|]; simpl.
  - destruct (f _ _); simpl; [|discriminate]. intros [= <- <-]. now repeat split.
  - intros [= <- <-]. now repeat split.
Qed.

Lemma useRequestMetric_onFulfilled_value
    (cb : option RequestMetricCallback) (config sent : Config.t) (w : World) :
  fst (useRequestMetric_onFulfilled cb config w) = Returned sent ->
  sent = annotate config (AxiosRequestMetric.new config (performance w (reads w))).
Proof.
  destruct (useRequestMetric_onFulfilled cb config w) as [c w1] eqn:Hrun.
  simpl. intros ->. now apply useRequestMetric_onFulfilled_returned in Hrun.
Qed.

(** X5. A response whose config is the one the request hook returned is
    measured from the clock reading of that request hook, in whatever world
    the success hook runs later: the response callback is invoked with a metric
    whose [response_time] is the reading of the success hook minus the reading
    of the request hook, not negative when the clock did not go back, and the
    hook ends as the callback does. *)
Theorem round_trip_response_time
    (rq : option RequestMetricCallback) (f : ResponseMetricCallback)
    (config sent : Config.t) (response : AxiosResponse.t) (w w' : World) :
  fst (useRequestMetric_onFulfilled rq config w) = Returned sent ->
  AxiosResponse.config response = sent ->
  exists m,
    In (CallResponseCb m response)
       (added w' (snd (useResponseMetric_onFulfilled (Some f) response w')))
    /\ fst (useResponseMetric_onFulfilled (Some f) response w')
       = completion_map (fun _ => response) (f m response)
    /\ AxiosResponseMetric.response_time m
       = (performance w' (reads w') - performance w (reads w))%float
    /\ ((performance w (reads w) <=? performance w' (reads w'))%float = true ->
        (AxiosResponseMetric.response_time m <? 0)%float = false).
Proof.
  intros Hsent Hconfig. apply useRequestMetric_onFulfilled_value in Hsent.
  rewrite useResponseMetric_onFulfilled_run.
  destruct (fromAxiosResponse_present response
              (AxiosRequestMetric.as_RequestMetric
                 (AxiosRequestMetric.new config (performance w (reads w))))
              ∅ (performance w' (reads w')))
    as (m & Hm & _ & Htime).
  { rewrite Hconfig, Hsent. reflexivity. }
  rewrite Hm. exists m. simpl in Htime |- *.
  rewrite (added_app w' _ [FromAxiosResponse response; CallResponseCb m response])
    by (simpl; now rewrite <- app_assoc).
  split; [right; now left|]. split; [reflexivity|]. split; [exact Htime|].
  intros Hle. rewrite Htime. now apply float_sub_nonneg.
Qed.

Lemma round_trip_response_time_witness :
  exists m,
    In (CallResponseCb m (ok_response get_items_sent))
       (added world1
          (snd (useResponseMetric_onFulfilled (Some quiet_response_cb)
                  (ok_response get_items_sent) world1)))
    /\ fst (useResponseMetric_onFulfilled (Some quiet_response_cb)
              (ok_response get_items_sent) world1)
       = completion_map (fun _ => ok_response get_items_sent)
           (quiet_response_cb m (ok_response get_items_sent))
    /\ AxiosResponseMetric.response_time m = (150 - 100)%float
    /\ ((100 <=? 150)%float = true ->
        (AxiosResponseMetric.response_time m <? 0)%float = false).
Proof.
  apply (round_trip_response_time (Some quiet_request_cb) quiet_response_cb
           get_items get_items_sent (ok_response get_items_sent) world0 world1);
    reflexivity.
Defined.

(** X6. After the request hook, the constructor of [AxiosErrorMetric] cannot
    throw: for an axios error whose config is the one the request hook
    returned, it returns a metric with the method, url and headers of the
    request, [request] present with the headers and body of the request and
    the start reading of the request hook, and [response_time] counted from
    that reading; the error hook ends as the error callback does. *)
Theorem round_trip_error_metric
    (rq : option RequestMetricCallback) (g : ErrorMetricCallback)
    (config sent : Config.t) (a : AxiosError.t) (w w' : World) :
  fst (useRequestMetric_onFulfilled rq config w) = Returned sent ->
  AxiosError.config a = Some sent ->
  exists m r,
    AxiosErrorMetric.new (UAxiosError a) (performance w' (reads w')) = Returned m
    /\ fst (useResponseMetric_onRejected (Some g) (UAxiosError a) w')
       = completion_map (fun _ => Rejected (UAxiosError a)) (g m (UAxiosError a))
    /\ AxiosErrorMetric.method m = Config.method config
    /\ AxiosErrorMetric.url m = Config.url config
    /\ AxiosErrorMetric.headers m = Some (Config.headers config)
    /\ AxiosErrorMetric.request m = Some r
    /\ RequestMetric.headers r = Config.headers config
    /\ RequestMetric.data r = Config.data config
    /\ RequestMetric.start_time r = performance w (reads w)
    /\ AxiosErrorMetric.response_time m
       = (performance w' (reads w') - performance w (reads w))%float
    /\ ((performance w (reads w) <=? performance w' (reads w'))%float = true ->
        (AxiosErrorMetric.response_time m <? 0)%float = false).
Proof.
  intros Hsent Hconfig. apply useRequestMetric_onFulfilled_value in Hsent.
  rewrite useResponseMetric_onRejected_run.
  rewrite (AxiosErrorMetric_new_present a sent
             (AxiosRequestMetric.as_RequestMetric
                (AxiosRequestMetric.new config (performance w (reads w))))
             ∅ (performance w' (reads w')) Hconfig)
    by (rewrite Hsent; reflexivity).
  rewrite Hsent. eexists _, _. repeat split. simpl.
  intros Hle. now apply float_sub_nonneg.
Qed.

Lemma round_trip_error_metric_witness :
  exists m r,
    AxiosErrorMetric.new (axios_error (Some get_items_sent)) 150%float = Returned m
    /\ fst (useResponseMetric_onRejected (Some quiet_error_cb)
              (axios_error (Some get_items_sent)) world1)
       = completion_map (fun _ => Rejected (axios_error (Some get_items_sent)))
           (quiet_error_cb m (axios_error (Some get_items_sent)))
    /\ AxiosErrorMetric.method m = Some "get"
    /\ AxiosErrorMetric.url m = Some "/items"
    /\ AxiosErrorMetric.headers m = Some request_headers
    /\ AxiosErrorMetric.request m = Some r
    /\ RequestMetric.headers r = request_headers
    /\ RequestMetric.data r = JUndefined
    /\ RequestMetric.start_time r = 100%float
    /\ AxiosErrorMetric.response_time m = (150 - 100)%float
    /\ ((100 <=? 150)%float = true ->
        (AxiosErrorMetric.response_time m <? 0)%float = false).
Proof.
  apply (round_trip_error_metric (Some quiet_request_cb) quiet_error_cb
           get_items get_items_sent
           {| AxiosError.message := "Request failed with status code 500";
              AxiosError.code := Some "ERR_BAD_RESPONSE";
              AxiosError.config := Some get_items_sent;
              AxiosError.response := Some (ok_response get_items_sent) |}
           world0 world1);
    reflexivity.
Defined.

(** X7. Two transactions in flight at once do not share their timing: when
    two configs pass the request hook one after the other and the second
    response arrives first, each response callback gets the metric of its own
    request, the second measured from the second reading and the first from
    the first. *)
Theorem interleaved_transactions
    (rq : option RequestMetricCallback) (f : ResponseMetricCallback)
    (c1 c2 s1 s2 : Config.t) (r1 r2 : AxiosResponse.t) (w w1 w2 : World) :
  useRequestMetric_onFulfilled rq c1 w = (Returned s1, w1) ->
  useRequestMetric_onFulfilled rq c2 w1 = (Returned s2, w2) ->
  AxiosResponse.config r1 = s1 ->
  AxiosResponse.config r2 = s2 ->
  (forall m r, f m r = Returned tt) ->
  exists m1 m2 w3 w4,
    useResponseMetric_onFulfilled (Some f) r2 w2 = (Returned r2, w3)
    /\ useResponseMetric_onFulfilled (Some f) r1 w3 = (Returned r1, w4)
    /\ added w2 w4
       = [FromAxiosResponse r2; CallResponseCb m2 r2;
          FromAxiosResponse r1; CallResponseCb m1 r1]
    /\ AxiosResponseMetric.response_time m2
       = (performance w (S (S (reads w))) - performance w (S (reads w)))%float
    /\ AxiosResponseMetric.response_time m1
       = (performance w (S (S (S (reads w)))) - performance w (reads w))%float.
Proof.
  intros H1 H2 Hr1 Hr2 Hf.
  apply useRequestMetric_onFulfilled_returned in H1 as (Hs1 & Hp1 & Hn1).
  apply useRequestMetric_onFulfilled_returned in H2 as (Hs2 & Hp2 & Hn2).
  rewrite Hp1, Hn1 in Hs2. rewrite Hp1 in Hp2. rewrite Hn1 in Hn2.
  destruct (fromAxiosResponse_present r2
              (AxiosRequestMetric.as_RequestMetric
                 (AxiosRequestMetric.new c2 (performance w (S (reads w)))))
              ∅ (performance w2 (reads w2)))
    as (m2 & Hm2 & _ & Ht2).
  { rewrite Hr2, Hs2. reflexivity. }
  destruct (fromAxiosResponse_present r1
              (AxiosRequestMetric.as_RequestMetric
                 (AxiosRequestMetric.new c1 (performance w (reads w))))
              ∅ (performance w2 (S (reads w2))))
    as (m1 & Hm1 & _ & Ht1).
  { rewrite Hr1, Hs1. reflexivity. }
  exists m1, m2.
  exists {| performance := performance w2;
            reads := S (reads w2);
            log := (log w2 ++ [FromAxiosResponse r2]) ++ [CallResponseCb m2 r2] |}.
  eexists.
  rewrite !useResponseMetric_onFulfilled_run. simpl.
  rewrite Hm2, Hm1, !Hf. simpl.
  split; [reflexivity|]. split; [reflexivity|].
  split; [|split].
  - apply added_app. simpl. now rewrite <- !app_assoc.
  - rewrite Ht2, Hp2, Hn2. reflexivity.
  - rewrite Ht1, Hp2, Hn2. reflexivity.
Qed.

Lemma interleaved_transactions_witness :
  exists m1 m2 w3 w4,
    useResponseMetric_onFulfilled (Some quiet_response_cb)
      (ok_response post_orders_sent) two_in_flight
    = (Returned (ok_response post_orders_sent), w3)
    /\ useResponseMetric_onFulfilled (Some quiet_response_cb)
         (ok_response get_items_sent) w3
       = (Returned (ok_response get_items_sent), w4)
    /\ added two_in_flight w4
       = [FromAxiosResponse (ok_response post_orders_sent);
          CallResponseCb m2 (ok_response post_orders_sent);
          FromAxiosResponse (ok_response get_items_sent);
          CallResponseCb m1 (ok_response get_items_sent)]
    /\ AxiosResponseMetric.response_time m2 = (150 - 110)%float
    /\ AxiosResponseMetric.response_time m1 = (175 - 100)%float.
Proof.
  exact (interleaved_transactions None quiet_response_cb get_items post_orders
           _ _ (ok_response _) (ok_response _) ticking _ _
           eq_refl eq_refl eq_refl eq_refl (fun _ _ => eq_refl)).
Defined.

(** ** The sentinel *)

(** X8. Whatever the failure, a metric the constructor returns is either
    uncorrelated, with [request] absent and [response_time] the sentinel [-1],
    which is below zero, or correlated, with [request] present and a
    [response_time] that is not below zero when the stored start is not after
    the end: with a clock that does not go back, a negative [response_time]
    tells the two apart. *)
Theorem error_metric_sentinel
    (error : unknown) (end_time : number) (m : AxiosErrorMetric.t) :
  AxiosErrorMetric.new error end_time = Returned m ->
  (AxiosErrorMetric.request m = None
   /\ AxiosErrorMetric.recognised_config error = None
   /\ AxiosErrorMetric.response_time m = (-1)%float
   /\ (AxiosErrorMetric.response_time m <? 0)%float = true)
  \/ (exists r config,
        AxiosErrorMetric.request m = Some r
        /\ AxiosErrorMetric.recognised_config error = Some config
        /\ AxiosErrorMetric.response_time m
           = (end_time - RequestMetric.start_time r)%float
        /\ ((RequestMetric.start_time r <=? end_time)%float = true ->
            (AxiosErrorMetric.response_time m <? 0)%float = false)).
Proof.
  unfold AxiosErrorMetric.new.
  destruct (AxiosErrorMetric.recognised_config error) as [config|].
  - repeat (destruct (metadata_metric_request_property _ _ _); simpl; [|discriminate]).
    intros [= <-]. right. eexists _, config. simpl. repeat split.
    intros Hle. now apply float_sub_nonneg.
  - intros [= <-]. left. now repeat split.
Qed.

Lemma error_metric_sentinel_witness :
  (exists m,
     AxiosErrorMetric.new (axios_error None) 150%float = Returned m
     /\ AxiosErrorMetric.request m = None
     /\ (AxiosErrorMetric.response_time m <? 0)%float = true)
  /\ (exists m,
        AxiosErrorMetric.new (axios_error (Some get_items_sent)) 150%float = Returned m
        /\ AxiosErrorMetric.request m <> None
        /\ (AxiosErrorMetric.response_time m <? 0)%float = false).
Proof.
  split; eexists; (split; [reflexivity|]).
  - destruct (error_metric_sentinel (axios_error None) 150%float _ eq_refl)
      as [(Hreq & _ & _ & Hneg)|(r & config & _ & Habs & _)].
    + now split.
    + discriminate Habs.
  - destruct (error_metric_sentinel (axios_error (Some get_items_sent)) 150%float _ eq_refl)
      as [(_ & Habs & _)|(r & config & Hreq & _ & _ & Hpos)].
    + discriminate Habs.
    + split; [rewrite Hreq; discriminate|].
      apply Hpos. injection Hreq as <-. reflexivity.
Defined.

(** ** Running the request hook again *)

(** X9. A config that already went through the request hook and goes through
    it again, as on a retry, comes out as the original config stamped at the
    later reading: nothing of the earlier stamp is left, and the other fields
    are those of the original config. *)
Theorem request_hook_restamps
    (cb1 cb2 : option RequestMetricCallback) (config sent again : Config.t) (w w' : World) :
  fst (useRequestMetric_onFulfilled cb1 config w) = Returned sent ->
  fst (useRequestMetric_onFulfilled cb2 sent w') = Returned again ->
  again = annotate config (AxiosRequestMetric.new config (performance w' (reads w')))
  /\ fst (useRequestMetric_onFulfilled cb2 config w') = Returned again
  /\ exists r,
       Config.metadata again = Present (Metadata.with_request r ∅)
       /\ RequestMetric.start_time r = performance w' (reads w').
Proof.
  intros H1 H2.
  apply useRequestMetric_onFulfilled_value in H1.
  pose proof (useRequestMetric_onFulfilled_value _ _ _ _ H2) as Hagain.
  assert (again = annotate config (AxiosRequestMetric.new config (performance w' (reads w'))))
    as Heq by (rewrite Hagain, H1; reflexivity).
  split; [exact Heq|]. split.
  - revert H2. rewrite !useRequestMetric_onFulfilled_run.
    destruct cb2 as [f|]; simpl; [|now rewrite Heq].
    rewrite H1. intros H2. exact H2.
  - rewrite Heq. now eexists.
Qed.

Lemma request_hook_restamps_witness :
  fst (useRequestMetric_onFulfilled (Some quiet_request_cb) get_items_sent world1)
  = Returned (annotate get_items (AxiosRequestMetric.new get_items 150%float))
  /\ fst (useRequestMetric_onFulfilled (Some quiet_request_cb) get_items world1)
     = fst (useRequestMetric_onFulfilled (Some quiet_request_cb) get_items_sent world1)
  /\ exists r,
       Config.metadata (annotate get_items (AxiosRequestMetric.new get_items 150%float))
         = Present (Metadata.with_request r ∅)
       /\ RequestMetric.start_time r = 150%float.
Proof.
  destruct (request_hook_restamps None (Some quiet_request_cb) get_items get_items_sent
              (annotate get_items (AxiosRequestMetric.new get_items 150%float))
              world0 world1 eq_refl eq_refl)
    as (_ & Hsame & Hmd).
  split; [reflexivity|]. split; [exact Hsame|exact Hmd].
Defined.
